(** * FlowView: a view of flow data stored in the Prefect backend

    Shallow embedding of [src/prefect/backend/flow.py].

    Python objects that travel through the module (JSON data coming back
    from the backend, [where] clauses, keyword arguments) are modelled by
    one universe [value]; dicts keep their insertion order, because the
    code iterates over them and formats them into messages.  Exceptions
    are a class together with the pieces of the f-string that builds the
    message.  The transport client, [FlowSchema], [StorageSchema] and
    [Flow.serialize] are collaborators outside the module: they are the
    variables of the section [Backend]. *)

From Stdlib Require Import String List ZArith Lia Bool.
Import ListNotations.
Local Open Scope string_scope.
Local Open Scope list_scope.

(** ** Python values *)

#[local] Set Warnings "-register-all".

Inductive value : Type :=
| VNone
| VBool (b : bool)
| VInt (z : Z)
| VStr (s : string)
| VEnum (s : string)                        (* graphql.EnumValue(s) *)
| VList (l : list value)
| VDict (d : list (string * value)).

Definition dict : Type := list (string * value).

(** [isinstance(v, str)] and [isinstance(v, dict)]. *)
Definition is_str (v : value) : bool :=
  match v with VStr _ => true | _ => false end.

Definition is_dict (v : value) : bool :=
  match v with VDict _ => true | _ => false end.

(** [v is None]. *)
Definition is_none (v : value) : bool :=
  match v with VNone => true | _ => false end.

(** Truth value of an object, as [if v] and [not v] test it. *)
Definition truthy (v : value) : bool :=
  match v with
  | VNone => false
  | VBool b => b
  | VInt z => negb (Z.eqb z 0)
  | VStr s => negb (String.eqb s "")
  | VEnum _ => true
  | VList l => match l with [] => false | _ => true end
  | VDict d => match d with [] => false | _ => true end
  end.

(** [v != ""]. *)
Definition neq_empty_str (v : value) : bool :=
  match v with VStr s => negb (String.eqb s "") | _ => true end.

(** ** Dicts *)

Module Dict.

Definition keys (d : dict) : list string := map fst d.

Fixpoint get (d : dict) (k : string) : option value :=
  match d with
  | [] => None
  | (k', v) :: r => if String.eqb k' k then Some v else get r k
  end.

Definition mem (d : dict) (k : string) : bool :=
  match get d k with Some _ => true | None => false end.

(** [del d[k]]: the entry of [k] disappears, the others keep their
    order. *)
Definition remove (d : dict) (k : string) : dict :=
  filter (fun kv => negb (String.eqb (fst kv) k)) d.

(** [d[k] = v]: an existing key keeps its position, a new one goes to
    the end. *)
Fixpoint set (d : dict) (k : string) (v : value) : dict :=
  match d with
  | [] => [(k, v)]
  | (k', v') :: r =>
      if String.eqb k' k then (k, v) :: r else (k', v') :: set r k v
  end.

(** [d.pop(k)]: the value and the dict that is left, [None] for the
    [KeyError]. *)
Definition pop (d : dict) (k : string) : option (value * dict) :=
  match get d k with
  | Some v => Some (v, remove d k)
  | None => None
  end.

End Dict.

(** ** Exceptions *)

Inductive exn_class : Type :=
| ValueError | TypeError | KeyError | IndexError | AttributeError.

(** One piece of an f-string. *)
Inductive frag : Type :=
| Lit (s : string)          (* literal text *)
| Str (v : value)           (* {v} *)
| Repr (v : value)          (* {v!r} *)
| Num (n : nat)             (* {len(...)} *)
| ReprType (v : value)      (* {type(v)!r} *)
| TypeName (v : value).     (* {type(v).__name__} *)

Record exn : Type := mkExn { exn_kind : exn_class; exn_msg : list frag }.

Inductive result (A : Type) : Type :=
| Ok (a : A)
| Raise (e : exn).
Arguments Ok {A} a.
Arguments Raise {A} e.

Definition is_ok {A} (r : result A) : bool :=
  match r with Ok _ => true | Raise _ => false end.

(** [KeyError(k)] *)
Definition key_error (k : string) : exn := mkExn KeyError [Repr (VStr k)].

(** A message reports [f] when [f] is one of its formatted pieces. *)
Definition reports (e : exn) (f : frag) : Prop := In f (exn_msg e).

(** ** Operations on objects of unknown type *)

(** [len(v)]. *)
Definition py_len (v : value) : result nat :=
  match v with
  | VStr s => Ok (String.length s)
  | VList l => Ok (List.length l)
  | VDict d => Ok (List.length d)
  | _ => Raise (mkExn TypeError [Lit "object of type "; TypeName v;
                                 Lit " has no len()"])
  end.

(** [v[0]].  The keys of the dicts of this module are strings, so the
    integer [0] is never one of them. *)
Definition py_getitem0 (v : value) : result value :=
  match v with
  | VList (x :: _) => Ok x
  | VList [] => Raise (mkExn IndexError [Lit "list index out of range"])
  | VStr (String c _) => Ok (VStr (String c EmptyString))
  | VStr EmptyString =>
      Raise (mkExn IndexError [Lit "string index out of range"])
  | VDict _ => Raise (mkExn KeyError [Repr (VInt 0)])
  | _ => Raise (mkExn TypeError [TypeName v;
                                 Lit " object is not subscriptable"])
  end.

(** [v[k]] for a string [k]. *)
Definition py_getitem (v : value) (k : string) : result value :=
  match v with
  | VDict d =>
      match Dict.get d k with
      | Some x => Ok x
      | None => Raise (key_error k)
      end
  | _ => Raise (mkExn TypeError [TypeName v;
                                 Lit " object is not subscriptable with ";
                                 Repr (VStr k)])
  end.

(** [v.get(k, default)]. *)
Definition py_get (v : value) (k : string) (default : value) : result value :=
  match v with
  | VDict d =>
      match Dict.get d k with
      | Some x => Ok x
      | None => Ok default
      end
  | _ => Raise (mkExn AttributeError [TypeName v;
                                      Lit " object has no attribute 'get'"])
  end.

(** [v.pop(k)] for a string [k]: the result and the object afterwards. *)
Definition py_pop (v : value) (k : string) : result value * value :=
  match v with
  | VDict d =>
      match Dict.pop d k with
      | Some (x, d') => (Ok x, VDict d')
      | None => (Raise (key_error k), v)
      end
  | VList _ =>
      (Raise (mkExn TypeError
                [Lit "'str' object cannot be interpreted as an integer"]), v)
  | _ => (Raise (mkExn AttributeError
                   [TypeName v; Lit " object has no attribute 'pop'"]), v)
  end.

(** ** The query sent to the backend *)

(** What is asked of a field: [True], or a set of sub-fields. *)
Inductive selection : Type :=
| SelTrue
| SelSet (fields : list string).

(** [{f"query{decls}": {with_args(target, args): fields}}] *)
Record flow_query : Type := mkQuery {
  q_header : string;
  q_target : string;
  q_args : dict;
  q_fields : list (string * selection)
}.

(** One call of [client.graphql(query, variables=...)]. *)
Record call : Type := mkCall { call_query : flow_query; call_variables : dict }.

Definition flow_fields : list (string * selection) :=
  [ ("id", SelTrue); ("settings", SelTrue); ("run_config", SelTrue);
    ("serialized_flow", SelTrue); ("name", SelTrue); ("archived", SelTrue);
    ("project", SelSet ["name"]); ("core_version", SelTrue);
    ("storage", SelTrue) ].

(** ** Computations: a state, and a result or an exception

    [St S A] threads a state of type [S] and stops at the first
    exception.  The entry points run in [M], whose state is the list of
    calls made to the transport client so far; [from_flow_data] runs on
    the dict it is given, which it changes in place. *)

Definition St (S A : Type) : Type := S -> S * result A.

Definition ret {S A} (a : A) : St S A := fun s => (s, Ok a).

Definition throw {S A} (e : exn) : St S A := fun s => (s, Raise e).

Definition lift {S A} (r : result A) : St S A := fun s => (s, r).

Definition bind {S A B} (m : St S A) (f : A -> St S B) : St S B :=
  fun s =>
    match m s with
    | (s', Ok a) => f a s'
    | (s', Raise e) => (s', Raise e)
    end.

Notation "x <- m ;; k" := (bind m (fun x => k))
  (at level 61, m at next level, right associativity).

Definition M (A : Type) : Type := St (list call) A.

(** The calls a computation makes from an empty history, and its
    outcome. *)
Definition calls {A} (m : M A) : list call := fst (m []).
Definition outcome {A} (m : M A) : result A := snd (m []).

(** ** Sample data: a record as the backend stores it, and backends
    that answer every query with the same result *)

Module Sample.

Definition record (fid : string) : dict :=
  [ ("id", VStr fid); ("settings", VDict []); ("run_config", VDict []);
    ("serialized_flow", VDict [("name", VStr "etl")]);
    ("name", VStr "etl"); ("archived", VBool false);
    ("project", VDict [("name", VStr "demo")]);
    ("core_version", VStr "0.14.0");
    ("storage", VDict [("type", VStr "Local")]) ].

(** [{"data": {"flow": [...]}}] *)
Definition response (records : list value) : dict :=
  [("data", VDict [("flow", VList records)])].

(** A backend that finds [records], whatever the query. *)
Definition backend (records : list value) (_ : flow_query) (_ : dict)
    : result dict :=
  Ok (response records).

(** A backend whose result has no ["data"]. *)
Definition backend_no_data (_ : flow_query) (_ : dict) : result dict :=
  Ok [("errors", VList [VStr "unavailable"])].

(** A backend whose result has a null ["data"]. *)
Definition backend_null_data (_ : flow_query) (_ : dict) : result dict :=
  Ok [("data", VNone); ("errors", VList [VStr "unavailable"])].

(** A client that cannot reach the backend. *)
Definition connection_refused : exn :=
  mkExn ValueError [Lit "connection refused"].

Definition backend_down (_ : flow_query) (_ : dict) : result dict :=
  Raise connection_refused.

(** Flows and storage that are their own serialised form. *)
Definition load (v : value) : result value := Ok v.

Definition serialize (v : value) : dict := [("tasks", v)].

(** A schema that loads dicts and refuses anything else. *)
Definition invalid_input : exn := mkExn ValueError [Lit "Invalid input type."].

Definition load_dict (v : value) : result value :=
  match v with
  | VDict _ => Ok v
  | _ => Raise invalid_input
  end.

End Sample.

(** ** The module *)

Section Backend.

(** [prefect.Flow] with [flow.serialize()], [prefect.storage.Storage],
    the two deserialisation schemas, and the [graphql] method of
    [prefect.Client()]. *)
Variable Flow : Type.
Variable Storage : Type.
Variable serialize : Flow -> dict.
Variable FlowSchema_load : value -> result Flow.
Variable StorageSchema_load : value -> result Storage.
Variable graphql : flow_query -> dict -> result dict.

Record FlowView : Type := mkFlowView {
  flow_id : value;
  flow : Flow;
  settings : value;
  run_config : value;
  serialized_flow : value;
  archived : value;
  project_name : value;
  core_version : value;
  storage : Storage;
  name : value
}.

(** The parameters of [__init__] that [from_flow_data] leaves to
    [**flow_data]. *)
Definition init_kwargs : list string :=
  ["settings"; "run_config"; "serialized_flow"; "archived";
   "core_version"; "name"].

(** [cls(flow_id=.., project_name=.., flow=.., storage=.., **kw)]: a key
    of [kw] that is no parameter, or one of the four given by name, is
    a [TypeError], and so is a parameter left without a value. *)
Definition FlowView_new (fid pname : value) (fl : Flow) (st : Storage)
    (kw : dict) : result FlowView :=
  match find (fun k => negb (existsb (String.eqb k) init_kwargs))
             (Dict.keys kw) with
  | Some k =>
      Raise (mkExn TypeError
               [Lit "__init__() got an unexpected or repeated keyword argument ";
                Repr (VStr k)])
  | None =>
      match Dict.get kw "settings", Dict.get kw "run_config",
            Dict.get kw "serialized_flow", Dict.get kw "archived",
            Dict.get kw "core_version", Dict.get kw "name" with
      | Some s, Some rc, Some sf, Some a, Some cv, Some n =>
          Ok (mkFlowView fid fl s rc sf a pname cv st n)
      | _, _, _, _, _, _ =>
          Raise (mkExn TypeError
                   [Lit "__init__() missing required arguments"])
      end
  end.

(** [**flow_data] *)
Definition kwargs_of (v : value) : result dict :=
  match v with
  | VDict d => Ok d
  | _ => Raise (mkExn TypeError
                  [Lit "argument after ** must be a mapping, not ";
                   TypeName v])
  end.

(** [flow_data.pop(k)] and [flow_data[k]] on the dict in the state. *)
Definition pop (k : string) : St value value :=
  fun fd => let (r, fd') := py_pop fd k in (fd', r).

Definition item (k : string) : St value value :=
  fun fd => (fd, py_getitem fd k).

Definition from_flow_data : St value FlowView :=
  fid <- pop "id" ;;
  project <- pop "project" ;;
  pname <- lift (py_getitem project "name") ;;
  sf <- item "serialized_flow" ;;
  deserialized_flow <- lift (FlowSchema_load sf) ;;
  raw_storage <- pop "storage" ;;
  st <- lift (StorageSchema_load raw_storage) ;;
  fun fd =>
    (fd, match kwargs_of fd with
         | Ok kw => FlowView_new fid pname deserialized_flow st kw
         | Raise e => Raise e
         end).

(** [client.graphql(q, variables=vars)], for the [client] that
    [query_for_flows] builds on entry: the call is added to the history,
    and what the client returns or raises is the outcome. *)
Definition client_graphql (q : flow_query) (vars : dict) : M dict :=
  fun t => (t ++ [mkCall q vars], graphql q vars).

(** The loop that validates the variable types. *)
Fixpoint validate_jsonb (items : dict) : result unit :=
  match items with
  | [] => Ok tt
  | (key, val) :: r =>
      if is_dict val then validate_jsonb r
      else Raise (mkExn ValueError
                    [Lit "Passed variable "; Repr (VStr key);
                     Lit " is of type "; TypeName val;
                     Lit ", expected 'dict'. Other types are not supported."])
  end.

Definition declare_variables (jsonb_variables : dict) : string :=
  ("(" ++ String.concat ", "
            (map (fun key => "$" ++ key ++ ": jsonb")
                 (Dict.keys jsonb_variables)) ++ ")")%string.

Definition build_query_args (where_ : dict) (order_by : option dict) : dict :=
  let query_args := [("where", VDict where_)] in
  match order_by with
  | Some o => Dict.set query_args "order_by" (VDict o)
  | None => query_args
  end.

(** [jsonb_variables or {}] *)
Definition or_empty (jsonb_variables : option dict) : dict :=
  match jsonb_variables with
  | Some d => if truthy (VDict d) then d else []
  | None => []
  end.

(** The part of [query_for_flows] before the call: the arguments, the
    validation of the variables and their declarations, the query. *)
Definition build_flow_query (where_ : dict) (order_by : option dict)
    (jsonb_variables : dict) : result flow_query :=
  let query_args := build_query_args where_ order_by in
  let declared (variable_declarations : string) :=
    Ok (mkQuery ("query" ++ variable_declarations)%string "flow"
                query_args flow_fields) in
  if truthy (VDict jsonb_variables)
  then match validate_jsonb jsonb_variables with
       | Ok _ => declared (declare_variables jsonb_variables)
       | Raise e => Raise e
       end
  else declared "".

(** The two errors that [query_for_flows] raises after the call. *)
Definition bad_result (where_ result_ : dict) : exn :=
  mkExn ValueError
    [Lit "Received bad result while querying for flows where ";
     Str (VDict where_); Lit ": "; Str (VDict result_)].

Definition no_results (where_ : dict) : exn :=
  mkExn ValueError
    [Lit "No results found while querying for flows where ";
     Repr (VDict where_)].

(** The part of [query_for_flows] after the call: what is read from the
    result of the client. *)
Definition read_flows (where_ : dict) (error_on_empty : bool)
    (result_ : dict) : result value :=
  match py_get (VDict result_) "data" (VDict []) with
  | Raise e => Raise e
  | Ok data =>
      match py_get data "flow" VNone with
      | Raise e => Raise e
      | Ok flows =>
          if is_none flows
          then Raise (bad_result where_ result_)
          else if negb (truthy flows)
          then if error_on_empty
               then Raise (no_results where_)
               else Ok (VList [])
          else Ok flows
      end
  end.

(** [error_on_empty] is [True] and the two others [None] when the
    caller leaves them out. *)
Definition query_for_flows (where_ : dict) (order_by : option dict)
    (error_on_empty : bool) (jsonb_variables : option dict) : M value :=
  let jsonb_variables := or_empty jsonb_variables in
  flow_query <- lift (build_flow_query where_ order_by jsonb_variables) ;;
  result_ <- client_graphql flow_query jsonb_variables ;;
  lift (read_flows where_ error_on_empty result_).

(** The error of [query_for_flow], and the one of [from_flow_name]. *)
Definition multiple_found (n : nat) (where_ : dict) (flows : value) : exn :=
  mkExn ValueError
    [Lit "Found multiple ("; Num n;
     Lit ") flows while querying for flows where ";
     Str (VDict where_); Lit ": "; Str flows].

Definition multiple_matching (where_ : dict) : exn :=
  mkExn ValueError
    [Lit "Found multiple flows matching "; Str (VDict where_);
     Lit ". Provide a `project_name` as well or toggle `last_updated` to use the flow that was most recently updated"].

Definition query_for_flow (where_ : dict) (order_by : option dict)
    (error_on_empty : bool) (jsonb_variables : option dict) : M value :=
  flows <- query_for_flows where_ order_by error_on_empty jsonb_variables ;;
  n <- lift (py_len flows) ;;
  if Nat.ltb 1 n
  then throw (multiple_found n where_ flows)
  else if negb (truthy flows)
  then ret (VDict [])
  else lift (py_getitem0 flows).

Definition where_id (fid : value) : dict :=
  [("id", VDict [("_eq", fid)])].

Definition from_flow_id (fid : value) : M FlowView :=
  if negb (is_str fid)
  then throw (mkExn TypeError
                [Lit "Unexpected type "; ReprType fid;
                 Lit " for `flow_id`, expected 'str'."])
  else
    flow_data <- query_for_flow (where_id fid) None true None ;;
    lift (snd (from_flow_data flow_data)).

Definition where_obj (allow_archived : bool) : dict :=
  let where_ := [("serialized_flow", VDict [("_eq", VEnum "$serialized_flow")])] in
  if negb allow_archived
  then Dict.set where_ "archived" (VDict [("_eq", VBool false)])
  else where_.

Definition from_flow_obj (fl : Flow) (allow_archived : bool) : M FlowView :=
  flow_data <-
    query_for_flow (where_obj allow_archived) None true
      (Some [("serialized_flow", VDict (serialize fl))]) ;;
  lift (snd (from_flow_data flow_data)).

Definition where_name (flow_name pname : value) : dict :=
  let where_ :=
    [("name", VDict [("_eq", flow_name)]);
     ("archived", VDict [("_eq", VBool false)])] in
  if neq_empty_str pname
  then Dict.set where_ "project"
         (VDict [("name",
                  if truthy pname
                  then VDict [("_eq", pname)]
                  else VDict [("_is_null", VBool true)])])
  else where_.

Definition order_by_updated : dict := [("updated_at", VEnum "desc")].

Definition from_flow_name (flow_name pname : value) (last_updated : bool)
    : M FlowView :=
  let where_ := where_name flow_name pname in
  flows <- query_for_flow where_ (Some order_by_updated) true None ;;
  n <- lift (py_len flows) ;;
  if Nat.ltb 1 n && negb last_updated
  then throw (multiple_matching where_)
  else
    flow_data <- lift (py_getitem0 flows) ;;
    lift (snd (from_flow_data flow_data)).

(** *** What the backend is assumed to do *)

(** The variables pass validation, and the client answers the query
    with [result_]. *)
Definition answers (where_ : dict) (order_by jsonb_variables : option dict)
    (q : flow_query) (result_ : dict) : Prop :=
  build_flow_query where_ order_by (or_empty jsonb_variables) = Ok q /\
  graphql q (or_empty jsonb_variables) = Ok result_.

(** The variables pass validation, and the client raises [e] instead of
    answering. *)
Definition refuses (where_ : dict) (order_by jsonb_variables : option dict)
    (q : flow_query) (e : exn) : Prop :=
  build_flow_query where_ order_by (or_empty jsonb_variables) = Ok q /\
  graphql q (or_empty jsonb_variables) = Raise e.

(** [result_] is [{"data": {"flow": flows, ...}, ...}]. *)
Definition carries (result_ : dict) (flows : value) : Prop :=
  exists data,
    Dict.get result_ "data" = Some (VDict data) /\
    Dict.get data "flow" = Some flows.

Definition requested : list string := map fst flow_fields.

(** A record with the fields the query asks for and no other, the
    project being a dict with its name. *)
Definition complete_record (r : dict) : bool :=
  forallb (fun k => existsb (String.eqb k) requested) (Dict.keys r)
  && forallb (Dict.mem r) requested
  && match Dict.get r "project" with
     | Some (VDict p) => Dict.mem p "name"
     | _ => false
     end.

(** Both schemas load their part of the record. *)
Definition loadable (r : dict) : bool :=
  match Dict.get r "serialized_flow", Dict.get r "storage" with
  | Some sf, Some raw =>
      is_ok (FlowSchema_load sf) && is_ok (StorageSchema_load raw)
  | _, _ => false
  end.

(** The keys that [from_flow_data] pops, in the order it pops them. *)
Definition popped_keys : list string := ["id"; "project"; "storage"].

(** Every variable is a dict. *)
Definition all_dicts (jsonb_variables : dict) : bool :=
  forallb (fun kv => is_dict (snd kv)) jsonb_variables.

(** ** Properties *)

(** *** Dicts *)

Lemma get_remove_same (d : dict) (k : string) :
  Dict.get (Dict.remove d k) k = None.
Proof.
  induction d as [|[k' v] d IH]; simpl; [reflexivity|].
  destruct (String.eqb k' k) eqn:E; simpl; [exact IH|].
  rewrite E. exact IH.
Qed.

Lemma get_remove_other (d : dict) (k k' : string) :
  k <> k' -> Dict.get (Dict.remove d k) k' = Dict.get d k'.
Proof.
  intros N. induction d as [|[k0 v] d IH]; simpl; [reflexivity|].
  destruct (String.eqb_spec k0 k) as [->|Nk]; simpl.
  - destruct (String.eqb_spec k k'); [contradiction|exact IH].
  - rewrite IH. reflexivity.
Qed.

Lemma keys_remove (d : dict) (k k' : string) :
  In k' (Dict.keys (Dict.remove d k)) -> In k' (Dict.keys d) /\ k' <> k.
Proof.
  unfold Dict.keys, Dict.remove. rewrite in_map_iff.
  intros [[k0 v] [<- I]]. apply filter_In in I. destruct I as [I E].
  simpl in *. split.
  - apply in_map_iff. exists (k0, v). auto.
  - destruct (String.eqb_spec k0 k); [discriminate|assumption].
Qed.

Lemma mem_true (d : dict) (k : string) :
  Dict.mem d k = true -> exists v, Dict.get d k = Some v.
Proof.
  unfold Dict.mem. destruct (Dict.get d k) as [v|]; [eauto|discriminate].
Qed.

(** *** The three stages of [query_for_flows] *)

Lemma or_empty_some (d : dict) : or_empty (Some d) = d.
Proof. destruct d; reflexivity. Qed.

Lemma validate_jsonb_rejects (items : dict) (k : string) (v : value) :
  In (k, v) items -> is_dict v = false ->
  exists e, validate_jsonb items = Raise e /\ exn_kind e = ValueError.
Proof.
  induction items as [|[k0 v0] r IH]; intros I D; [destruct I|].
  simpl. destruct (is_dict v0) eqn:E.
  - destruct I as [I|I]; [|auto].
    injection I as -> ->. congruence.
  - eauto.
Qed.

Lemma build_flow_query_rejects (w : dict) (o : option dict) (j : dict)
    (k : string) (v : value) :
  In (k, v) j -> is_dict v = false ->
  exists e, build_flow_query w o j = Raise e /\ exn_kind e = ValueError.
Proof.
  intros I D. unfold build_flow_query.
  destruct j as [|kv j']; [destruct I|].
  cbn [truthy].
  destruct (validate_jsonb_rejects _ _ _ I D) as (e & -> & K). eauto.
Qed.

Lemma query_for_flows_answered (w : dict) (o j : option dict) (eoe : bool)
    (q : flow_query) (r : dict) (t : list call) :
  answers w o j q r ->
  query_for_flows w o eoe j t
  = (t ++ [mkCall q (or_empty j)], read_flows w eoe r).
Proof.
  intros [B G]. unfold query_for_flows, bind, lift, client_graphql.
  rewrite B, G. reflexivity.
Qed.

Lemma read_flows_carries (w : dict) (eoe : bool) (r : dict) (fl : value) :
  carries r fl ->
  read_flows w eoe r
  = if is_none fl
    then Raise (bad_result w r)
    else if negb (truthy fl)
    then if eoe then Raise (no_results w) else Ok (VList [])
    else Ok fl.
Proof.
  intros (data & D & F). unfold read_flows, py_get. rewrite D, F.
  reflexivity.
Qed.

(** Replaces a query that the backend [answers] by the call it makes and
    by what is read from a result that [carries] the flows. *)
Ltac answered A C :=
  rewrite ?(query_for_flows_answered _ _ _ _ _ _ _ A);
  rewrite ?(read_flows_carries _ _ _ _ C).

(** *** Empty results *)

(** C8.  When the backend answers the query with an empty list of flows,
    [query_for_flows] with [error_on_empty=False] returns the empty list,
    and with [error_on_empty=True], the default, it raises the
    [ValueError] that says no results were found; the client has been
    called once either way. *)
Theorem query_for_flows_empty (w : dict) (o j : option dict)
    (q : flow_query) (r : dict) (t : list call) :
  answers w o j q r ->
  carries r (VList []) ->
  query_for_flows w o false j t
  = (t ++ [mkCall q (or_empty j)], Ok (VList []))
  /\ query_for_flows w o true j t
     = (t ++ [mkCall q (or_empty j)], Raise (no_results w))
  /\ exn_kind (no_results w) = ValueError.
Proof.
  intros A C. answered A C. repeat split.
Qed.

(** C5.  When the backend finds no record for the id, [from_flow_id]
    raises the [ValueError] that says no results were found: the outcome
    is the exception, not a view and not a placeholder. *)
Theorem from_flow_id_not_found (fid : string) (q : flow_query) (r : dict)
    (t : list call) :
  answers (where_id (VStr fid)) None None q r ->
  carries r (VList []) ->
  from_flow_id (VStr fid) t
  = (t ++ [mkCall q []], Raise (no_results (where_id (VStr fid))))
  /\ exn_kind (no_results (where_id (VStr fid))) = ValueError.
Proof.
  intros A C. unfold from_flow_id, query_for_flow, bind. cbn [is_str negb].
  answered A C. split; reflexivity.
Qed.

(** *** Invalid input *)

(** C7.  A [flow_id] that is not a string makes [from_flow_id] raise a
    [TypeError], and a variable whose value is not a dict makes
    [query_for_flows] raise a [ValueError]; in both cases the list of
    calls made to the client is the one from before, so the client has
    not been called. *)
Theorem invalid_input_before_transport (t : list call) :
  (forall fid : value,
      is_str fid = false ->
      exists e, from_flow_id fid t = (t, Raise e)
                /\ exn_kind e = TypeError)
  /\ (forall (w : dict) (o : option dict) (eoe : bool) (j : dict)
             (k : string) (v : value),
         In (k, v) j -> is_dict v = false ->
         exists e, query_for_flows w o eoe (Some j) t = (t, Raise e)
                   /\ exn_kind e = ValueError).
Proof.
  split.
  - intros fid S. unfold from_flow_id. rewrite S. cbn [negb].
    eexists. split; reflexivity.
  - intros w o eoe j k v I D.
    unfold query_for_flows, bind, lift. rewrite or_empty_some.
    destruct (build_flow_query_rejects w o j k v I D) as (e & -> & K).
    eauto.
Qed.

(** *** Malformed results *)

(** C9, as the code has it.  When the result of the client has no
    ["data"], or its ["data"] has no ["flow"] or a null one,
    [query_for_flows] raises
    the [ValueError] that says a bad result was received and quotes the
    filter and the result.  The error for an empty result is a
    [ValueError] too: the two are of one class and differ by their
    message. *)
Theorem query_for_flows_bad_result (w : dict) (o j : option dict)
    (eoe : bool) (q : flow_query) (r : dict) (t : list call) :
  answers w o j q r ->
  (Dict.get r "data" = None
   \/ exists data, Dict.get r "data" = Some (VDict data)
                   /\ (Dict.get data "flow" = None
                       \/ Dict.get data "flow" = Some VNone)) ->
  query_for_flows w o eoe j t
  = (t ++ [mkCall q (or_empty j)], Raise (bad_result w r))
  /\ exn_kind (bad_result w r) = ValueError
  /\ exn_kind (bad_result w r) = exn_kind (no_results w)
  /\ exn_msg (bad_result w r) <> exn_msg (no_results w).
Proof.
  intros A H. rewrite (query_for_flows_answered _ _ _ _ _ _ _ A).
  repeat split; [|discriminate].
  unfold read_flows, py_get.
  destruct H as [-> | (data & -> & [-> | ->])]; reflexivity.
Qed.

(** *** Several results *)

Lemma query_for_flow_many (w : dict) (o j : option dict) (eoe : bool)
    (q : flow_query) (r : dict) (l : list value) (t : list call) :
  answers w o j q r ->
  carries r (VList l) ->
  (1 < List.length l)%nat ->
  query_for_flow w o eoe j t
  = (t ++ [mkCall q (or_empty j)],
     Raise (multiple_found (List.length l) w (VList l))).
Proof.
  intros A C L. unfold query_for_flow, bind. answered A C.
  destruct l as [|x l]; [inversion L|].
  cbn [is_none truthy negb lift py_len].
  apply Nat.ltb_lt in L. rewrite L. reflexivity.
Qed.

(** With several records [from_flow_name] stops in [query_for_flow],
    whatever [last_updated] is. *)
Lemma from_flow_name_many (fn pn : value) (lu : bool) (q : flow_query)
    (r : dict) (l : list value) (t : list call) :
  answers (where_name fn pn) (Some order_by_updated) None q r ->
  carries r (VList l) ->
  (1 < List.length l)%nat ->
  from_flow_name fn pn lu t
  = (t ++ [mkCall q []],
     Raise (multiple_found (List.length l) (where_name fn pn) (VList l))).
Proof.
  intros A C L. unfold from_flow_name, bind.
  rewrite (query_for_flow_many _ _ _ _ _ _ _ _ A C L). reflexivity.
Qed.

(** C4.  When the backend finds more than one record, [from_flow_name]
    with [last_updated=False] raises a [ValueError] whose message
    contains the filter and the number of records; no view is
    returned. *)
Theorem from_flow_name_ambiguous (fn pn : value) (q : flow_query)
    (r : dict) (l : list value) (t : list call) :
  answers (where_name fn pn) (Some order_by_updated) None q r ->
  carries r (VList l) ->
  (1 < List.length l)%nat ->
  exists e,
    from_flow_name fn pn false t = (t ++ [mkCall q []], Raise e)
    /\ exn_kind e = ValueError
    /\ reports e (Str (VDict (where_name fn pn)))
    /\ reports e (Num (List.length l)).
Proof.
  intros A C L. eexists. split.
  - exact (from_flow_name_many _ _ _ _ _ _ _ A C L).
  - unfold reports. simpl. intuition.
Qed.

(** X14.  With one record, a dict, [from_flow_name] takes the record for
    the list of records: it never returns a view. *)
Lemma from_flow_name_one (fn pn : value) (lu : bool) (q : flow_query)
    (r rec : dict) (t : list call) :
  answers (where_name fn pn) (Some order_by_updated) None q r ->
  carries r (VList [VDict rec]) ->
  from_flow_name fn pn lu t
  = (t ++ [mkCall q []],
     Raise (if Nat.ltb 1 (List.length rec) && negb lu
            then multiple_matching (where_name fn pn)
            else mkExn KeyError [Repr (VInt 0)])).
Proof.
  intros A C. unfold from_flow_name, query_for_flow, bind. answered A C.
  cbn [is_none truthy negb lift py_len].
  change (Nat.ltb 1 (List.length [VDict rec])) with false.
  cbn [lift py_len py_getitem0].
  destruct (Nat.ltb 1 (List.length rec) && negb lu); reflexivity.
Qed.

(** *** Building a view from a record *)

(** [from_flow_data] on a dict, step by step: what is raised at each
    place where it can stop, and the dict as it is left there. *)
Lemma from_flow_data_dict (d : dict) :
  from_flow_data (VDict d)
  = match Dict.get d "id" with
    | None => (VDict d, Raise (key_error "id"))
    | Some fid =>
    let d1 := Dict.remove d "id" in
    match Dict.get d "project" with
    | None => (VDict d1, Raise (key_error "project"))
    | Some project =>
    let d2 := Dict.remove d1 "project" in
    match py_getitem project "name" with
    | Raise e => (VDict d2, Raise e)
    | Ok pname =>
    match Dict.get d "serialized_flow" with
    | None => (VDict d2, Raise (key_error "serialized_flow"))
    | Some sf =>
    match FlowSchema_load sf with
    | Raise e => (VDict d2, Raise e)
    | Ok fl =>
    match Dict.get d "storage" with
    | None => (VDict d2, Raise (key_error "storage"))
    | Some raw =>
    let d3 := Dict.remove d2 "storage" in
    match StorageSchema_load raw with
    | Raise e => (VDict d3, Raise e)
    | Ok st => (VDict d3, FlowView_new fid pname fl st d3)
    end end end end end end end.
Proof.
  unfold from_flow_data, bind, pop, item, lift, py_pop, Dict.pop.
  destruct (Dict.get d "id") as [fid|]; [|reflexivity].
  rewrite (get_remove_other d "id" "project") by discriminate.
  destruct (Dict.get d "project") as [project|]; [|reflexivity].
  destruct (py_getitem project "name") as [pname|e]; [|reflexivity].
  cbn [py_getitem].
  rewrite (get_remove_other _ "project" "serialized_flow") by discriminate.
  rewrite (get_remove_other d "id" "serialized_flow") by discriminate.
  destruct (Dict.get d "serialized_flow") as [sf|]; [|reflexivity].
  destruct (FlowSchema_load sf) as [fl|e]; [|reflexivity].
  rewrite (get_remove_other _ "project" "storage") by discriminate.
  rewrite (get_remove_other d "id" "storage") by discriminate.
  destruct (Dict.get d "storage") as [raw|]; [|reflexivity].
  destruct (StorageSchema_load raw) as [st|e]; reflexivity.
Qed.

Lemma requested_not_popped (k : string) :
  existsb (String.eqb k) requested = true ->
  k <> "id" -> k <> "project" -> k <> "storage" ->
  existsb (String.eqb k) init_kwargs = true.
Proof.
  intros R N1 N2 N3. apply existsb_exists in R. destruct R as (x & I & E).
  apply String.eqb_eq in E. subst x.
  apply existsb_exists. exists k. split; [|apply String.eqb_refl].
  unfold requested, flow_fields, init_kwargs in *. simpl in *.
  intuition congruence.
Qed.

(** A complete record with its three keys popped is what [__init__]
    expects for its other parameters. *)
Lemma FlowView_new_complete (r : dict) (fid pname : value) (fl : Flow)
    (st : Storage) :
  complete_record r = true ->
  exists fv,
    FlowView_new fid pname fl st
      (Dict.remove (Dict.remove (Dict.remove r "id") "project") "storage")
    = Ok fv
    /\ flow_id fv = fid /\ project_name fv = pname
    /\ flow fv = fl /\ storage fv = st
    /\ Dict.get r "name" = Some (name fv)
    /\ Dict.get r "archived" = Some (archived fv)
    /\ Dict.get r "serialized_flow" = Some (serialized_flow fv).
Proof.
  clear serialize FlowSchema_load StorageSchema_load graphql.
  unfold complete_record. intros C.
  apply andb_prop in C. destruct C as [C _].
  apply andb_prop in C. destruct C as [K P].
  unfold FlowView_new.
  set (kw := Dict.remove _ "storage").
  assert (F : find (fun k => negb (existsb (String.eqb k) init_kwargs))
                   (Dict.keys kw) = None).
  { destruct (find _ (Dict.keys kw)) as [k|] eqn:E; [|reflexivity].
    apply find_some in E. destruct E as [I E]. exfalso.
    apply keys_remove in I. destruct I as [I N3].
    apply keys_remove in I. destruct I as [I N2].
    apply keys_remove in I. destruct I as [I N1].
    rewrite forallb_forall in K. specialize (K k I).
    rewrite (requested_not_popped k K N1 N2 N3) in E. discriminate. }
  rewrite F.
  assert (G : forall k, In k init_kwargs ->
                        exists v, Dict.get kw k = Some v
                                  /\ Dict.get r k = Some v).
  { intros k I. rewrite forallb_forall in P.
    assert (I' : In k requested)
      by (unfold requested, init_kwargs in *; simpl in *; intuition).
    destruct (mem_true _ _ (P k I')) as [v V]. exists v. split; [|exact V].
    unfold kw.
    rewrite !get_remove_other, V; try reflexivity;
      intros <-; unfold init_kwargs in I; simpl in I;
      intuition discriminate. }
  destruct (G "settings") as (v1 & -> & _); [simpl; tauto|].
  destruct (G "run_config") as (v2 & -> & _); [simpl; tauto|].
  destruct (G "serialized_flow") as (v3 & -> & R3); [simpl; tauto|].
  destruct (G "archived") as (v4 & -> & R4); [simpl; tauto|].
  destruct (G "core_version") as (v5 & -> & _); [simpl; tauto|].
  destruct (G "name") as (v6 & -> & R6); [simpl; tauto|].
  eexists. split; [reflexivity|]. simpl. auto 10.
Qed.

(** A complete record that both schemas load becomes a view, and loses
    its three keys on the way. *)
Lemma from_flow_data_complete (r : dict) :
  complete_record r = true ->
  loadable r = true ->
  exists fv,
    from_flow_data (VDict r)
    = (VDict (Dict.remove (Dict.remove (Dict.remove r "id") "project")
                          "storage"),
       Ok fv)
    /\ Dict.get r "id" = Some (flow_id fv)
    /\ Dict.get r "name" = Some (name fv)
    /\ Dict.get r "archived" = Some (archived fv)
    /\ Dict.get r "serialized_flow" = Some (serialized_flow fv).
Proof.
  clear serialize graphql.
  intros C L. rewrite from_flow_data_dict.
  pose proof C as C'. unfold complete_record in C'.
  apply andb_prop in C'. destruct C' as [C' PJ].
  apply andb_prop in C'. destruct C' as [_ P].
  rewrite forallb_forall in P.
  destruct (mem_true _ _ (P "id" ltac:(simpl; tauto))) as [fid ->].
  destruct (Dict.get r "project") as [[| | | | | |p]|]; try discriminate.
  destruct (mem_true _ _ PJ) as [pname PN].
  cbn [py_getitem]. rewrite PN.
  unfold loadable in L.
  destruct (Dict.get r "serialized_flow") as [sf|] eqn:SF; [|discriminate].
  destruct (Dict.get r "storage") as [raw|]; [|discriminate].
  apply andb_prop in L. destruct L as [L1 L2].
  destruct (FlowSchema_load sf) as [fl|]; [|discriminate].
  destruct (StorageSchema_load raw) as [st|]; [|discriminate].
  cbv zeta.
  destruct (FlowView_new_complete r fid pname fl st C)
    as (fv & -> & <- & _ & _ & _ & N & A & S).
  exists fv. repeat split; congruence.
Qed.

(** C1, as the code has it.  When the backend finds exactly one record
    for a string id, and that record is complete (the nine fields of the
    query and no other, the project a dict with its name) and both
    schemas load their part of it, [from_flow_id] returns a view whose
    [flow_id] is the ["id"] of that record. *)
Theorem from_flow_id_one_record (fid : string) (q : flow_query)
    (r rec : dict) (t : list call) :
  answers (where_id (VStr fid)) None None q r ->
  carries r (VList [VDict rec]) ->
  complete_record rec = true ->
  loadable rec = true ->
  exists fv,
    from_flow_id (VStr fid) t = (t ++ [mkCall q []], Ok fv)
    /\ Dict.get rec "id" = Some (flow_id fv).
Proof.
  intros A C W L. unfold from_flow_id, query_for_flow, bind.
  cbn [is_str negb]. answered A C.
  cbn [is_none truthy negb lift py_len List.length Nat.ltb Nat.leb
       py_getitem0].
  destruct (from_flow_data_complete rec W L) as (fv & -> & I & _).
  exists fv. split; [reflexivity|exact I].
Qed.

(** *** What [from_flow_data] does to its argument *)

Lemma get_stays_none (ks : list string) (d : dict) (k : string) :
  Dict.get d k = None -> Dict.get (fold_left Dict.remove ks d) k = None.
Proof.
  revert d. induction ks as [|k0 ks IH]; intros d N; [exact N|].
  simpl. apply IH. destruct (string_dec k0 k) as [->|D].
  - apply get_remove_same.
  - rewrite get_remove_other; assumption.
Qed.

Lemma get_removed (ks : list string) (d : dict) (k : string) :
  In k ks -> Dict.get (fold_left Dict.remove ks d) k = None.
Proof.
  revert d. induction ks as [|k0 ks IH]; intros d I; [destruct I|].
  simpl. destruct I as [->|I]; [|auto].
  apply get_stays_none, get_remove_same.
Qed.

Lemma get_not_removed (ks : list string) (d : dict) (k : string) :
  ~ In k ks -> Dict.get (fold_left Dict.remove ks d) k = Dict.get d k.
Proof.
  revert d. induction ks as [|k0 ks IH]; intros d N; [reflexivity|].
  simpl. rewrite IH by (intros I; apply N; right; exact I).
  apply get_remove_other. intros ->. apply N. left. reflexivity.
Qed.

Lemma mem_false (d : dict) (k : string) :
  Dict.get d k = None -> Dict.mem d k = true -> False.
Proof. unfold Dict.mem. intros ->. discriminate. Qed.

(** A failure between the second pop and the third leaves two keys
    popped: [T] is that fact, [e] the exception. *)
Ltac stopped_after_project T e :=
  let n := fresh "n" in
  destruct (T e) as (n & ? & ? & ? & ? & ? & ?);
  exists n; cbv zeta; repeat split; try assumption.

(** C10.  [from_flow_data] changes the dict it is given: it leaves it
    without the first [n] of the keys ["id"], ["project"], ["storage"],
    the other keys keeping their values and their order, where [n]
    counts the pops that were reached: all three when the call
    succeeds, and when it fails, every one whose key was there and
    before which nothing failed. *)
Theorem from_flow_data_pops (d : dict) :
  exists n,
    let d' := fold_left Dict.remove (firstn n popped_keys) d in
    fst (from_flow_data (VDict d)) = VDict d'
    /\ (forall k, In k (firstn n popped_keys) -> Dict.get d' k = None)
    /\ (forall k, ~ In k (firstn n popped_keys) ->
                  Dict.get d' k = Dict.get d k)
    /\ (is_ok (snd (from_flow_data (VDict d))) = true -> n = 3%nat)
    /\ (Dict.mem d "id" = true -> (1 <= n)%nat)
    /\ (Dict.mem d "id" = true -> Dict.mem d "project" = true ->
        (2 <= n)%nat)
    /\ (forall project sf,
           Dict.mem d "id" = true ->
           Dict.get d "project" = Some project ->
           is_ok (py_getitem project "name") = true ->
           Dict.get d "serialized_flow" = Some sf ->
           is_ok (FlowSchema_load sf) = true ->
           Dict.mem d "storage" = true ->
           n = 3%nat).
Proof.
  rewrite from_flow_data_dict.
  assert (G : forall n : nat,
             let d' := fold_left Dict.remove (firstn n popped_keys) d in
             (forall k, In k (firstn n popped_keys) -> Dict.get d' k = None)
             /\ (forall k, ~ In k (firstn n popped_keys) ->
                           Dict.get d' k = Dict.get d k)).
  { intros n d'. split; intros k; [apply get_removed|apply get_not_removed]. }
  destruct (Dict.get d "id") as [fid|] eqn:E1.
  2:{ exists 0%nat. destruct (G 0%nat) as [G1 G2].
      repeat split; try assumption; try discriminate;
        intros; exfalso; eauto using mem_false. }
  destruct (Dict.get d "project") as [project|] eqn:E2.
  2:{ exists 1%nat. destruct (G 1%nat) as [G1 G2].
      repeat split; try assumption; try discriminate; try lia;
        intros; exfalso; eauto using mem_false; congruence. }
  assert (T2 : forall (e : exn),
             exists n,
               let d' := fold_left Dict.remove (firstn n popped_keys) d in
               VDict (Dict.remove (Dict.remove d "id") "project") = VDict d'
               /\ (forall k, In k (firstn n popped_keys) ->
                             Dict.get d' k = None)
               /\ (forall k, ~ In k (firstn n popped_keys) ->
                             Dict.get d' k = Dict.get d k)
               /\ (is_ok (@Raise FlowView e) = true -> n = 3%nat)
               /\ (Dict.mem d "id" = true -> (1 <= n)%nat)
               /\ (Dict.mem d "id" = true -> Dict.mem d "project" = true ->
                   (2 <= n)%nat)).
  { intros e. exists 2%nat. destruct (G 2%nat) as [G1 G2].
    repeat split; try assumption; try discriminate; lia. }
  destruct (py_getitem project "name") as [pname|e] eqn:E3.
  2:{ stopped_after_project T2 e.
      intros p' sf' _ P N. exfalso.
      injection P as <-. rewrite E3 in N. discriminate. }
  destruct (Dict.get d "serialized_flow") as [sf|] eqn:E4.
  2:{ stopped_after_project T2 (key_error "serialized_flow").
      intros p' sf' _ _ _ S. discriminate. }
  destruct (FlowSchema_load sf) as [fl|e] eqn:E5.
  2:{ stopped_after_project T2 e.
      intros p' sf' _ _ _ S F. exfalso.
      injection S as <-. rewrite E5 in F. discriminate. }
  destruct (Dict.get d "storage") as [raw|] eqn:E6.
  2:{ stopped_after_project T2 (key_error "storage").
      intros. exfalso. eauto using mem_false. }
  exists 3%nat. destruct (G 3%nat) as [G1 G2]. cbv zeta.
  destruct (StorageSchema_load raw) as [st|e];
    repeat split; try assumption; try reflexivity; lia.
Qed.

(** *** The query of [from_flow_obj] *)

Lemma calls_bind_quiet {A B} (m : M A) (f : A -> M B) (t : list call) :
  (forall a t', fst (f a t') = t') ->
  fst (bind m f t) = fst (m t).
Proof.
  intros Q. unfold bind. destruct (m t) as [t' [a|e]]; [apply Q|reflexivity].
Qed.

Lemma calls_query_for_flows (w : dict) (o j : option dict) (eoe : bool)
    (q : flow_query) (t : list call) :
  build_flow_query w o (or_empty j) = Ok q ->
  fst (query_for_flows w o eoe j t) = t ++ [mkCall q (or_empty j)].
Proof.
  intros B. unfold query_for_flows, bind, lift, client_graphql.
  rewrite B. destruct (graphql q (or_empty j)); reflexivity.
Qed.

Lemma calls_query_for_flow (w : dict) (o j : option dict) (eoe : bool)
    (t : list call) :
  fst (query_for_flow w o eoe j t) = fst (query_for_flows w o eoe j t).
Proof.
  unfold query_for_flow. apply calls_bind_quiet. intros flows t'.
  unfold bind, lift, throw, ret.
  destruct (py_len flows) as [n|e]; [|reflexivity].
  destruct (Nat.ltb 1 n); [reflexivity|].
  destruct (negb (truthy flows)); reflexivity.
Qed.

(** C6.  Whatever the flow, [from_flow_obj] calls the client once, with
    a query that declares the variable [$serialized_flow] as [jsonb] and
    whose filter compares [serialized_flow] with that variable, followed
    by [archived] equal to [False] unless [allow_archived] is set; the
    serialised flow is the value of the variable and the filter does not
    depend on it. *)
Theorem from_flow_obj_query (fl : Flow) (allow_archived : bool)
    (t : list call) :
  fst (from_flow_obj fl allow_archived t)
  = t ++ [mkCall
            (mkQuery "query($serialized_flow: jsonb)" "flow"
               [("where",
                 VDict
                   (("serialized_flow",
                     VDict [("_eq", VEnum "$serialized_flow")])
                    :: if allow_archived then []
                       else [("archived", VDict [("_eq", VBool false)])]))]
               flow_fields)
            [("serialized_flow", VDict (serialize fl))]].
Proof.
  unfold from_flow_obj.
  rewrite calls_bind_quiet by reflexivity.
  rewrite calls_query_for_flow.
  erewrite calls_query_for_flows.
  - reflexivity.
  - destruct allow_archived; reflexivity.
Qed.

(** ** Further properties *)

(** *** Failures of the transport *)

Lemma query_for_flows_refused (w : dict) (o j : option dict) (eoe : bool)
    (q : flow_query) (e : exn) (t : list call) :
  refuses w o j q e ->
  query_for_flows w o eoe j t = (t ++ [mkCall q (or_empty j)], Raise e).
Proof.
  intros [B G]. unfold query_for_flows, bind, lift, client_graphql.
  rewrite B, G. reflexivity.
Qed.

Lemma query_for_flow_refused (w : dict) (o j : option dict) (eoe : bool)
    (q : flow_query) (e : exn) (t : list call) :
  refuses w o j q e ->
  query_for_flow w o eoe j t = (t ++ [mkCall q (or_empty j)], Raise e).
Proof.
  intros R. unfold query_for_flow, bind.
  rewrite (query_for_flows_refused _ _ _ _ _ _ _ R). reflexivity.
Qed.

(** X1.  When the client raises [e] whatever it is asked, each of the
    three lookups, and [query_for_flows] itself, raises that same [e]
    after one call: the exception is neither caught nor wrapped and the
    call is not repeated. *)
Theorem transport_failure_propagates (e : exn) (t : list call) :
  (forall q v, graphql q v = Raise e) ->
  (forall s, exists c, from_flow_id (VStr s) t = (t ++ [c], Raise e))
  /\ (forall fl aa, exists c, from_flow_obj fl aa t = (t ++ [c], Raise e))
  /\ (forall fn pn lu,
         exists c, from_flow_name fn pn lu t = (t ++ [c], Raise e))
  /\ (forall w o eoe,
         exists c, query_for_flows w o eoe None t = (t ++ [c], Raise e)).
Proof.
  intros H. repeat split.
  - intros s. eexists. unfold from_flow_id, bind. cbn [is_str negb].
    erewrite query_for_flow_refused; [reflexivity|].
    split; [reflexivity|apply H].
  - intros fl aa. eexists. unfold from_flow_obj, bind.
    erewrite query_for_flow_refused; [reflexivity|].
    split; [reflexivity|apply H].
  - intros fn pn lu. eexists. unfold from_flow_name, bind.
    erewrite query_for_flow_refused; [reflexivity|].
    split; [reflexivity|apply H].
  - intros w o eoe. eexists.
    erewrite query_for_flows_refused; [reflexivity|].
    split; [reflexivity|apply H].
Qed.

(** *** Which records become a view *)

Lemma keys_kept (d : dict) (k k0 : string) :
  In k (Dict.keys d) -> k <> k0 -> In k (Dict.keys (Dict.remove d k0)).
Proof.
  unfold Dict.keys, Dict.remove. rewrite !in_map_iff.
  intros [[k1 v] [E I]] N. simpl in E. subst k1.
  exists (k, v). split; [reflexivity|]. apply filter_In. split; [exact I|].
  simpl. destruct (String.eqb_spec k k0); [contradiction|reflexivity].
Qed.

Lemma get_mem (d : dict) (k : string) (v : value) :
  Dict.get d k = Some v -> Dict.mem d k = true.
Proof. unfold Dict.mem. intros ->. reflexivity. Qed.

(** What a successful call of [__init__] tells about its keyword
    arguments. *)
Lemma FlowView_new_ok (fid pname : value) (fl : Flow) (st : Storage)
    (kw : dict) (fv : FlowView) :
  FlowView_new fid pname fl st kw = Ok fv ->
  (forall k, In k (Dict.keys kw) ->
             existsb (String.eqb k) init_kwargs = true)
  /\ flow_id fv = fid /\ project_name fv = pname
  /\ flow fv = fl /\ storage fv = st
  /\ Dict.get kw "settings" = Some (settings fv)
  /\ Dict.get kw "run_config" = Some (run_config fv)
  /\ Dict.get kw "serialized_flow" = Some (serialized_flow fv)
  /\ Dict.get kw "archived" = Some (archived fv)
  /\ Dict.get kw "core_version" = Some (core_version fv)
  /\ Dict.get kw "name" = Some (name fv).
Proof.
  clear serialize FlowSchema_load StorageSchema_load graphql.
  unfold FlowView_new.
  destruct (find _ (Dict.keys kw)) as [k|] eqn:F; [discriminate|].
  destruct (Dict.get kw "settings") as [v1|]; [|discriminate].
  destruct (Dict.get kw "run_config") as [v2|]; [|discriminate].
  destruct (Dict.get kw "serialized_flow") as [v3|]; [|discriminate].
  destruct (Dict.get kw "archived") as [v4|]; [|discriminate].
  destruct (Dict.get kw "core_version") as [v5|]; [|discriminate].
  destruct (Dict.get kw "name") as [v6|]; [|discriminate].
  intros E. injection E as <-. simpl. repeat split.
  intros k I. apply (find_none _ _ F) in I.
  apply negb_false_iff in I. exact I.
Qed.

(** What a successful call of [from_flow_data] went through. *)
Lemma from_flow_data_ok (d : dict) (fv : FlowView) :
  snd (from_flow_data (VDict d)) = Ok fv ->
  exists fid project pname sf fl raw st,
    Dict.get d "id" = Some fid
    /\ Dict.get d "project" = Some project
    /\ py_getitem project "name" = Ok pname
    /\ Dict.get d "serialized_flow" = Some sf
    /\ FlowSchema_load sf = Ok fl
    /\ Dict.get d "storage" = Some raw
    /\ StorageSchema_load raw = Ok st
    /\ FlowView_new fid pname fl st
         (Dict.remove (Dict.remove (Dict.remove d "id") "project") "storage")
       = Ok fv.
Proof.
  rewrite from_flow_data_dict.
  destruct (Dict.get d "id") as [fid|]; [|discriminate].
  destruct (Dict.get d "project") as [project|]; [|discriminate].
  destruct (py_getitem project "name") as [pname|] eqn:PN; [|discriminate].
  destruct (Dict.get d "serialized_flow") as [sf|]; [|discriminate].
  destruct (FlowSchema_load sf) as [fl|] eqn:L; [|discriminate].
  destruct (Dict.get d "storage") as [raw|]; [|discriminate].
  destruct (StorageSchema_load raw) as [st|] eqn:LS; [|discriminate].
  cbv zeta. cbn [snd]. intros N.
  exists fid, project, pname, sf, fl, raw, st. repeat split; assumption.
Qed.

Lemma get_after_pops (d : dict) (k : string) :
  In k init_kwargs ->
  Dict.get (Dict.remove (Dict.remove (Dict.remove d "id") "project")
                        "storage") k
  = Dict.get d k.
Proof.
  intros I. rewrite !get_remove_other; try reflexivity;
    intros <-; unfold init_kwargs in I; simpl in I; intuition discriminate.
Qed.

(** X2.  The view that [from_flow_data] returns holds the record's
    fields as they are: its [flow_id] is the ["id"], its [project_name]
    the ["name"] of the ["project"], the six other fields the values of
    their keys; its [flow] is what [FlowSchema] loads from the
    [serialized_flow] that the view keeps, and its [storage] what
    [StorageSchema] loads from the ["storage"] of the record. *)
Theorem from_flow_data_fields (d : dict) (fv : FlowView) :
  snd (from_flow_data (VDict d)) = Ok fv ->
  Dict.get d "id" = Some (flow_id fv)
  /\ (exists project,
         Dict.get d "project" = Some project
         /\ py_getitem project "name" = Ok (project_name fv))
  /\ Dict.get d "settings" = Some (settings fv)
  /\ Dict.get d "run_config" = Some (run_config fv)
  /\ Dict.get d "serialized_flow" = Some (serialized_flow fv)
  /\ Dict.get d "archived" = Some (archived fv)
  /\ Dict.get d "core_version" = Some (core_version fv)
  /\ Dict.get d "name" = Some (name fv)
  /\ FlowSchema_load (serialized_flow fv) = Ok (flow fv)
  /\ (exists raw,
         Dict.get d "storage" = Some raw
         /\ StorageSchema_load raw = Ok (storage fv)).
Proof.
  intros H. apply from_flow_data_ok in H.
  destruct H as (fid & project & pname & sf & fl & raw & st
                 & I & P & PN & S & L & R & LS & N).
  apply FlowView_new_ok in N.
  destruct N as (_ & <- & <- & <- & <- & G1 & G2 & G3 & G4 & G5 & G6).
  rewrite get_after_pops in G1, G2, G3, G4, G5, G6 by (simpl; tauto).
  assert (E : sf = serialized_flow fv) by congruence. subst sf.
  repeat split; try assumption; eauto.
Qed.

(** X3.  [from_flow_data] returns a view for exactly the records that are
    complete and loadable: the nine fields of the query and no other key,
    a project that is a dict with a name, a flow and a storage that their
    schemas load.  Any other dict makes it raise. *)
Theorem from_flow_data_ok_iff (d : dict) :
  is_ok (snd (from_flow_data (VDict d))) = true
  <-> complete_record d = true /\ loadable d = true.
Proof.
  clear serialize graphql. split.
  - destruct (snd (from_flow_data (VDict d))) as [fv|] eqn:H; [|discriminate].
    intros _. apply from_flow_data_ok in H.
    destruct H as (fid & project & pname & sf & fl & raw & st
                   & I & P & PN & S & L & R & LS & N).
    apply FlowView_new_ok in N.
    destruct N as (K & _ & _ & _ & _ & G1 & G2 & G3 & G4 & G5 & G6).
    rewrite get_after_pops in G1, G2, G3, G4, G5, G6 by (simpl; tauto).
    split.
    + unfold complete_record. rewrite !andb_true_iff. repeat split.
      * apply forallb_forall. intros k Ik.
        destruct (string_dec k "id") as [->|N1]; [reflexivity|].
        destruct (string_dec k "project") as [->|N2]; [reflexivity|].
        destruct (string_dec k "storage") as [->|N3]; [reflexivity|].
        assert (Ik' := keys_kept _ _ _ (keys_kept _ _ _
                         (keys_kept _ _ _ Ik N1) N2) N3).
        apply K in Ik'. apply existsb_exists in Ik'.
        destruct Ik' as (x & Ix & E). apply String.eqb_eq in E. subst x.
        apply existsb_exists. exists k. split; [|apply String.eqb_refl].
        unfold requested, flow_fields, init_kwargs in *. simpl in *.
        intuition.
      * unfold requested, flow_fields. simpl.
        rewrite (get_mem _ _ _ I), (get_mem _ _ _ G1), (get_mem _ _ _ G2),
          (get_mem _ _ _ G3), (get_mem _ _ _ G6), (get_mem _ _ _ G4),
          (get_mem _ _ _ P), (get_mem _ _ _ G5), (get_mem _ _ _ R).
        reflexivity.
      * rewrite P. destruct project as [| | | | | |p]; try discriminate.
        simpl in PN. destruct (Dict.get p "name") eqn:E; [|discriminate].
        exact (get_mem _ _ _ E).
    + unfold loadable. rewrite S, R, L, LS. reflexivity.
  - intros [C L]. destruct (from_flow_data_complete d C L) as (fv & -> & _).
    reflexivity.
Qed.

(** *** Missing keys *)

(** X4.  [from_flow_data] raises the [KeyError] of the first key it does
    not find, in the order ["id"], ["project"], ["serialized_flow"],
    ["storage"], and leaves the dict as the pops before that point made
    it: untouched when ["id"] is missing, without ["id"] when
    ["project"] is, without both after that. *)
Theorem from_flow_data_missing_key (d : dict) :
  (Dict.get d "id" = None ->
   from_flow_data (VDict d) = (VDict d, Raise (key_error "id")))
  /\ (Dict.mem d "id" = true -> Dict.get d "project" = None ->
      from_flow_data (VDict d)
      = (VDict (Dict.remove d "id"), Raise (key_error "project")))
  /\ (forall project,
         Dict.mem d "id" = true ->
         Dict.get d "project" = Some project ->
         is_ok (py_getitem project "name") = true ->
         Dict.get d "serialized_flow" = None ->
         from_flow_data (VDict d)
         = (VDict (Dict.remove (Dict.remove d "id") "project"),
            Raise (key_error "serialized_flow")))
  /\ (forall project sf,
         Dict.mem d "id" = true ->
         Dict.get d "project" = Some project ->
         is_ok (py_getitem project "name") = true ->
         Dict.get d "serialized_flow" = Some sf ->
         is_ok (FlowSchema_load sf) = true ->
         Dict.get d "storage" = None ->
         from_flow_data (VDict d)
         = (VDict (Dict.remove (Dict.remove d "id") "project"),
            Raise (key_error "storage"))).
Proof.
  rewrite from_flow_data_dict. repeat split.
  - intros ->. reflexivity.
  - intros I ->. apply mem_true in I. destruct I as [fid ->]. reflexivity.
  - intros project I -> N ->. apply mem_true in I. destruct I as [fid ->].
    destruct (py_getitem project "name"); [reflexivity|discriminate].
  - intros project sf I -> N -> L ->. apply mem_true in I.
    destruct I as [fid ->].
    destruct (py_getitem project "name"); [|discriminate].
    destruct (FlowSchema_load sf); [reflexivity|discriminate].
Qed.

(** *** The variables of a query *)

Lemma validate_jsonb_all_dicts (items : dict) :
  all_dicts items = true -> validate_jsonb items = Ok tt.
Proof.
  induction items as [|[k v] r IH]; simpl; [reflexivity|].
  intros H. apply andb_prop in H. destruct H as [-> H]. auto.
Qed.

Lemma validate_jsonb_first (pre post : dict) (k : string) (v : value) :
  all_dicts pre = true -> is_dict v = false ->
  validate_jsonb (pre ++ (k, v) :: post)
  = Raise (mkExn ValueError
             [Lit "Passed variable "; Repr (VStr k);
              Lit " is of type "; TypeName v;
              Lit ", expected 'dict'. Other types are not supported."]).
Proof.
  intros P V. induction pre as [|[k0 v0] pre IH]; simpl.
  - rewrite V. reflexivity.
  - simpl in P. apply andb_prop in P. destruct P as [-> P]. auto.
Qed.

(** X5.  [query_for_flows] calls the client exactly when every variable
    it is given is a dict.  The one call then carries the variables as
    they were passed, and the query declares each of them, in their
    order, as [$key: jsonb]; without variables the header is the bare
    [query].  When some variable is not a dict no call is made. *)
Theorem query_for_flows_calls_iff_valid (w : dict) (o : option dict)
    (eoe : bool) (j : dict) (t : list call) :
  fst (query_for_flows w o eoe (Some j) t)
  = if all_dicts j
    then t ++ [mkCall
                 (mkQuery
                    match j with
                    | [] => "query"
                    | _ => ("query(" ++
                            String.concat ", "
                              (map (fun key => "$" ++ key ++ ": jsonb")
                                   (Dict.keys j)) ++ ")")%string
                    end
                    "flow" (build_query_args w o) flow_fields)
                 j]
    else t.
Proof.
  destruct (all_dicts j) eqn:A.
  - erewrite calls_query_for_flows; rewrite or_empty_some; [reflexivity|].
    unfold build_flow_query. destruct j as [|kv j']; [reflexivity|].
    cbn [truthy]. rewrite (validate_jsonb_all_dicts _ A). reflexivity.
  - unfold query_for_flows, bind, lift. rewrite or_empty_some.
    unfold build_flow_query. destruct j as [|kv j']; [discriminate|].
    cbn [truthy]. destruct (validate_jsonb (kv :: j')) as [[]|e] eqn:V;
      [|reflexivity].
    exfalso. clear - A V. revert A V.
    induction (kv :: j') as [|[k v] r IH]; simpl; [discriminate|].
    destruct (is_dict v); simpl; [auto|discriminate].
Qed.

(** X6.  The [ValueError] for a variable that is not a dict names the
    first such variable, in the order of the dict, and the type of its
    value; no call has been made. *)
Theorem query_for_flows_first_invalid (w : dict) (o : option dict)
    (eoe : bool) (pre post : dict) (k : string) (v : value)
    (t : list call) :
  all_dicts pre = true ->
  is_dict v = false ->
  query_for_flows w o eoe (Some (pre ++ (k, v) :: post)) t
  = (t, Raise (mkExn ValueError
                 [Lit "Passed variable "; Repr (VStr k);
                  Lit " is of type "; TypeName v;
                  Lit ", expected 'dict'. Other types are not supported."])).
Proof.
  intros P V. unfold query_for_flows, bind, lift. rewrite or_empty_some.
  unfold build_flow_query.
  assert (T : truthy (VDict (pre ++ (k, v) :: post)) = true)
    by (destruct pre; reflexivity).
  rewrite T, (validate_jsonb_first pre post k v P V). reflexivity.
Qed.

(** *** The queries of [from_flow_id] and [from_flow_name] *)

Lemma calls_from_flow_name (fn pn : value) (lu : bool) (t : list call) :
  fst (from_flow_name fn pn lu t)
  = fst (query_for_flow (where_name fn pn) (Some order_by_updated) true
           None t).
Proof.
  unfold from_flow_name. apply calls_bind_quiet. intros flows t'.
  unfold bind, lift, throw.
  destruct (py_len flows) as [n|e]; [|reflexivity].
  destruct (Nat.ltb 1 n && negb lu); [reflexivity|].
  destruct (py_getitem0 flows); reflexivity.
Qed.

(** X7.  For a string id, [from_flow_id] calls the client once, with the
    filter [id] equal to that id, no ordering and no variables. *)
Theorem from_flow_id_query (s : string) (t : list call) :
  fst (from_flow_id (VStr s) t)
  = t ++ [mkCall
            (mkQuery "query" "flow"
               [("where", VDict [("id", VDict [("_eq", VStr s)])])]
               flow_fields)
            []].
Proof.
  unfold from_flow_id. cbn [is_str negb].
  rewrite calls_bind_quiet by reflexivity.
  rewrite calls_query_for_flow.
  erewrite calls_query_for_flows; reflexivity.
Qed.

(** X8.  [from_flow_name] calls the client once, ordering by
    [updated_at] descending and filtering on the name and on [archived]
    equal to [False].  The project is left out of the filter when
    [project_name] is the empty string, is required to be null when
    [project_name] is [None], and must have the given name when
    [project_name] is another string. *)
Theorem from_flow_name_query (fn : value) (lu : bool) (t : list call) :
  let sent where_ :=
    t ++ [mkCall
            (mkQuery "query" "flow"
               [("where", VDict where_);
                ("order_by", VDict [("updated_at", VEnum "desc")])]
               flow_fields)
            []] in
  let on_name :=
    [("name", VDict [("_eq", fn)]);
     ("archived", VDict [("_eq", VBool false)])] in
  fst (from_flow_name fn (VStr "") lu t) = sent on_name
  /\ fst (from_flow_name fn VNone lu t)
     = sent (on_name
             ++ [("project",
                  VDict [("name", VDict [("_is_null", VBool true)])])])
  /\ (forall s, s <> "" ->
        fst (from_flow_name fn (VStr s) lu t)
        = sent (on_name
                ++ [("project",
                     VDict [("name", VDict [("_eq", VStr s)])])])).
Proof.
  cbv zeta. repeat split; try intros s N;
    rewrite calls_from_flow_name, calls_query_for_flow;
    (erewrite calls_query_for_flows; [|reflexivity]).
  - reflexivity.
  - reflexivity.
  - unfold where_name, neq_empty_str, truthy.
    apply String.eqb_neq in N. rewrite N. reflexivity.
Qed.

(** *** What [query_for_flow] hands back *)

(** X9.  When the backend finds one record, [query_for_flow] returns that
    record, whatever [error_on_empty] is; when it finds none and
    [error_on_empty] is [False], [query_for_flow] returns the empty
    dict, where [query_for_flows] returns the empty list. *)
Theorem query_for_flow_returns (w : dict) (o j : option dict)
    (q : flow_query) (r : dict) (t : list call) :
  answers w o j q r ->
  (forall x eoe,
      carries r (VList [x]) ->
      query_for_flow w o eoe j t = (t ++ [mkCall q (or_empty j)], Ok x))
  /\ (carries r (VList []) ->
      query_for_flow w o false j t
      = (t ++ [mkCall q (or_empty j)], Ok (VDict []))).
Proof.
  intros A. split.
  - intros x eoe C. unfold query_for_flow, bind. answered A C. reflexivity.
  - intros C. unfold query_for_flow, bind. answered A C. reflexivity.
Qed.

(** X10.  When the ["data"] of the client's result is there but is not
    a dict, null for instance, [query_for_flows] raises an
    [AttributeError], not the [ValueError] for a bad result. *)
Theorem query_for_flows_data_not_dict (w : dict) (o j : option dict)
    (eoe : bool) (q : flow_query) (r : dict) (v : value) (t : list call) :
  answers w o j q r ->
  Dict.get r "data" = Some v ->
  is_dict v = false ->
  exists e,
    query_for_flows w o eoe j t = (t ++ [mkCall q (or_empty j)], Raise e)
    /\ exn_kind e = AttributeError.
Proof.
  intros A D N. rewrite (query_for_flows_answered _ _ _ _ _ _ _ A).
  unfold read_flows. cbn [py_get]. rewrite D.
  destruct v; try discriminate; eexists; split; reflexivity.
Qed.

(** *** The lookups by id and by flow object *)

(** X11.  When the backend finds exactly one record for the flow, a
    complete record that both schemas load, [from_flow_obj] returns a
    view of that record: the id, the archived flag and the serialised
    flow of the view are the record's, as the backend sent them. *)
Theorem from_flow_obj_one_record (fl : Flow) (aa : bool) (q : flow_query)
    (r rec : dict) (t : list call) :
  answers (where_obj aa) None
    (Some [("serialized_flow", VDict (serialize fl))]) q r ->
  carries r (VList [VDict rec]) ->
  complete_record rec = true ->
  loadable rec = true ->
  exists fv,
    from_flow_obj fl aa t
    = (t ++ [mkCall q [("serialized_flow", VDict (serialize fl))]], Ok fv)
    /\ Dict.get rec "id" = Some (flow_id fv)
    /\ Dict.get rec "archived" = Some (archived fv)
    /\ Dict.get rec "serialized_flow" = Some (serialized_flow fv).
Proof.
  intros A C W L. unfold from_flow_obj, query_for_flow, bind.
  answered A C.
  cbn [is_none truthy negb lift py_len List.length Nat.ltb Nat.leb
       py_getitem0 or_empty].
  destruct (from_flow_data_complete rec W L) as (fv & -> & I & _ & R & S).
  exists fv. repeat split; assumption.
Qed.

(** X12.  When the backend finds no record, [from_flow_obj] and
    [from_flow_name] raise the [ValueError] that says no results were
    found for their filter. *)
Theorem lookups_not_found (t : list call) :
  (forall fl aa q r,
      answers (where_obj aa) None
        (Some [("serialized_flow", VDict (serialize fl))]) q r ->
      carries r (VList []) ->
      from_flow_obj fl aa t
      = (t ++ [mkCall q [("serialized_flow", VDict (serialize fl))]],
         Raise (no_results (where_obj aa))))
  /\ (forall fn pn lu q r,
         answers (where_name fn pn) (Some order_by_updated) None q r ->
         carries r (VList []) ->
         from_flow_name fn pn lu t
         = (t ++ [mkCall q []], Raise (no_results (where_name fn pn)))).
Proof.
  split.
  - intros fl aa q r A C. unfold from_flow_obj, query_for_flow, bind.
    answered A C. reflexivity.
  - intros fn pn lu q r A C. unfold from_flow_name, query_for_flow, bind.
    answered A C. reflexivity.
Qed.

(** X13.  When the backend finds more than one record, [from_flow_id]
    and [from_flow_obj] raise the [ValueError] of [query_for_flow], whose
    message holds the number of records, the filter and the records. *)
Theorem lookups_ambiguous (l : list value) (t : list call) :
  (1 < List.length l)%nat ->
  (forall s q r,
      answers (where_id (VStr s)) None None q r ->
      carries r (VList l) ->
      from_flow_id (VStr s) t
      = (t ++ [mkCall q []],
         Raise (multiple_found (List.length l) (where_id (VStr s))
                  (VList l))))
  /\ (forall fl aa q r,
         answers (where_obj aa) None
           (Some [("serialized_flow", VDict (serialize fl))]) q r ->
         carries r (VList l) ->
         from_flow_obj fl aa t
         = (t ++ [mkCall q [("serialized_flow", VDict (serialize fl))]],
            Raise (multiple_found (List.length l) (where_obj aa)
                     (VList l)))).
Proof.
  intros L. split.
  - intros s q r A C. unfold from_flow_id, bind. cbn [is_str negb].
    rewrite (query_for_flow_many _ _ _ _ _ _ _ _ A C L). reflexivity.
  - intros fl aa q r A C. unfold from_flow_obj, bind.
    rewrite (query_for_flow_many _ _ _ _ _ _ _ _ A C L). reflexivity.
Qed.

End Backend.

(** ** The module on the sample backends *)

Local Abbreviation from_flow_id_on b :=
  (from_flow_id value value Sample.load Sample.load b).
Local Abbreviation from_flow_name_on b :=
  (from_flow_name value value Sample.load Sample.load b).
Local Abbreviation from_flow_data_on :=
  (from_flow_data value value Sample.load Sample.load).

Lemma sample_carries (records : list value) :
  carries (Sample.response records) (VList records).
Proof. exists [("flow", VList records)]. split; reflexivity. Qed.

Lemma sample_answers (records : list value) (w : dict) (o : option dict) :
  answers (Sample.backend records) w o None
    (mkQuery "query" "flow" (build_query_args w o) flow_fields)
    (Sample.response records).
Proof. split; reflexivity. Qed.

Lemma from_flow_id_one_record_witness :
  exists fv,
    from_flow_id_on (Sample.backend [VDict (Sample.record "abc")])
      (VStr "abc") []
    = ([mkCall (mkQuery "query" "flow"
                  [("where", VDict [("id", VDict [("_eq", VStr "abc")])])]
                  flow_fields) []],
       Ok fv)
    /\ Dict.get (Sample.record "abc") "id" = Some (flow_id _ _ fv).
Proof.
  apply (from_flow_id_one_record value value Sample.load Sample.load
           (Sample.backend [VDict (Sample.record "abc")]) "abc" _
           (Sample.response [VDict (Sample.record "abc")])
           (Sample.record "abc") []).
  - apply sample_answers.
  - apply sample_carries.
  - reflexivity.
  - reflexivity.
Defined.

(** C1, as the claim has it, fails: one record is not enough for a view.
    [from_flow_id] raises what [FlowSchema] raises when the
    ["serialized_flow"] of the record does not load, a [KeyError] when
    the record has no ["storage"], and a [TypeError] when the record has
    a key that [__init__] does not take or when its ["project"] is
    null. *)
Lemma from_flow_id_one_record_may_raise :
  outcome (from_flow_id value value Sample.load_dict Sample.load
             (Sample.backend
                [VDict (Dict.set (Sample.record "abc") "serialized_flow"
                          VNone)])
             (VStr "abc"))
  = Raise Sample.invalid_input
  /\ outcome (from_flow_id_on
                (Sample.backend
                   [VDict (Dict.remove (Sample.record "abc") "storage")])
                (VStr "abc"))
     = Raise (key_error "storage")
  /\ (exists e,
         outcome (from_flow_id_on
                    (Sample.backend
                       [VDict (Dict.set (Sample.record "abc") "updated_at"
                                 (VStr "2021-03-01"))])
                    (VStr "abc"))
         = Raise e
         /\ exn_kind e = TypeError)
  /\ (exists e,
         outcome (from_flow_id_on
                    (Sample.backend
                       [VDict (Dict.set (Sample.record "abc") "project"
                                 VNone)])
                    (VStr "abc"))
         = Raise e
         /\ exn_kind e = TypeError).
Proof.
  split; [reflexivity|]. split; [reflexivity|].
  split; eexists; split; reflexivity.
Qed.

(** C2.  One record: [from_flow_name] does not return it.  The record that
    [query_for_flow] hands back is taken for the list of records, so its
    nine keys count as nine flows when [last_updated] is [False], and
    [flows[0]] looks up the key [0] in it when [last_updated] is [True]. *)
Theorem from_flow_name_one_record_raises :
  outcome (from_flow_name_on (Sample.backend [VDict (Sample.record "abc")])
             (VStr "etl") (VStr "") false)
  = Raise (multiple_matching (where_name (VStr "etl") (VStr "")))
  /\ outcome (from_flow_name_on (Sample.backend [VDict (Sample.record "abc")])
                (VStr "etl") (VStr "") true)
     = Raise (mkExn KeyError [Repr (VInt 0)]).
Proof. split; reflexivity. Qed.

(** C3.  Two records and [last_updated=True]: [from_flow_name] raises the
    error of [query_for_flow] and returns neither of them. *)
Theorem from_flow_name_last_updated_raises :
  outcome (from_flow_name_on
             (Sample.backend [VDict (Sample.record "new");
                              VDict (Sample.record "old")])
             (VStr "etl") (VStr "") true)
  = Raise (multiple_found 2 (where_name (VStr "etl") (VStr ""))
             (VList [VDict (Sample.record "new");
                     VDict (Sample.record "old")])).
Proof. reflexivity. Qed.

Lemma from_flow_name_ambiguous_witness :
  exists e,
    from_flow_name_on
      (Sample.backend [VDict (Sample.record "new");
                       VDict (Sample.record "old")])
      (VStr "etl") VNone false []
    = ([mkCall (mkQuery "query" "flow"
                  (build_query_args (where_name (VStr "etl") VNone)
                     (Some order_by_updated))
                  flow_fields) []],
       Raise e)
    /\ exn_kind e = ValueError
    /\ reports e (Str (VDict (where_name (VStr "etl") VNone)))
    /\ reports e (Num 2).
Proof.
  apply (from_flow_name_ambiguous value value Sample.load Sample.load
           (Sample.backend [VDict (Sample.record "new");
                            VDict (Sample.record "old")])
           (VStr "etl") VNone _
           (Sample.response [VDict (Sample.record "new");
                             VDict (Sample.record "old")])
           [VDict (Sample.record "new"); VDict (Sample.record "old")] []).
  - apply sample_answers.
  - apply sample_carries.
  - simpl. lia.
Defined.

Lemma from_flow_id_not_found_witness :
  from_flow_id_on (Sample.backend []) (VStr "abc") []
  = ([mkCall (mkQuery "query" "flow"
                [("where", VDict (where_id (VStr "abc")))] flow_fields) []],
     Raise (no_results (where_id (VStr "abc"))))
  /\ exn_kind (no_results (where_id (VStr "abc"))) = ValueError.
Proof.
  apply (from_flow_id_not_found value value Sample.load Sample.load
           (Sample.backend []) "abc" _ (Sample.response []) []).
  - apply sample_answers.
  - apply sample_carries.
Defined.

Lemma from_flow_obj_query_witness :
  calls (from_flow_obj value value Sample.serialize Sample.load Sample.load
           (Sample.backend [VDict (Sample.record "abc")])
           (VList [VStr "extract"; VStr "load"]) false)
  = [mkCall
       (mkQuery "query($serialized_flow: jsonb)" "flow"
          [("where",
            VDict [("serialized_flow",
                    VDict [("_eq", VEnum "$serialized_flow")]);
                   ("archived", VDict [("_eq", VBool false)])])]
          flow_fields)
       [("serialized_flow",
         VDict [("tasks", VList [VStr "extract"; VStr "load"])])]].
Proof.
  exact (from_flow_obj_query value value Sample.serialize Sample.load
           Sample.load (Sample.backend [VDict (Sample.record "abc")])
           (VList [VStr "extract"; VStr "load"]) false []).
Defined.

Lemma invalid_input_before_transport_witness :
  (exists e,
      from_flow_id_on (Sample.backend [VDict (Sample.record "abc")])
        (VInt 7) []
      = ([], Raise e) /\ exn_kind e = TypeError)
  /\ (exists e,
         query_for_flows (Sample.backend [VDict (Sample.record "abc")])
           (where_obj false) None true
           (Some [("serialized_flow", VStr "not a dict")]) []
         = ([], Raise e) /\ exn_kind e = ValueError).
Proof.
  destruct (invalid_input_before_transport value value Sample.load
              Sample.load (Sample.backend [VDict (Sample.record "abc")]) [])
    as [I J].
  split.
  - apply I. reflexivity.
  - apply (J _ _ _ _ "serialized_flow" (VStr "not a dict")).
    + simpl. left. reflexivity.
    + reflexivity.
Defined.

Lemma query_for_flows_empty_witness :
  query_for_flows (Sample.backend []) (where_id (VStr "abc")) None false
    None []
  = ([mkCall (mkQuery "query" "flow"
                [("where", VDict (where_id (VStr "abc")))] flow_fields) []],
     Ok (VList []))
  /\ query_for_flows (Sample.backend []) (where_id (VStr "abc")) None true
       None []
     = ([mkCall (mkQuery "query" "flow"
                   [("where", VDict (where_id (VStr "abc")))] flow_fields)
           []],
        Raise (no_results (where_id (VStr "abc"))))
  /\ exn_kind (no_results (where_id (VStr "abc"))) = ValueError.
Proof.
  apply (query_for_flows_empty (Sample.backend []) (where_id (VStr "abc"))
           None None _ (Sample.response []) []).
  - apply sample_answers.
  - apply sample_carries.
Defined.

(** C9, as the claim has it, fails: a result without ["data"] and an empty
    result make [query_for_flows] raise exceptions of the same class. *)
Lemma bad_result_same_kind_as_not_found :
  exists e1 e2,
    outcome (query_for_flows Sample.backend_no_data (where_id (VStr "abc"))
               None true None) = Raise e1
    /\ outcome (query_for_flows (Sample.backend []) (where_id (VStr "abc"))
                  None true None) = Raise e2
    /\ exn_kind e1 = exn_kind e2.
Proof. do 2 eexists. repeat split. Qed.

Lemma query_for_flows_bad_result_witness :
  query_for_flows Sample.backend_no_data (where_id (VStr "abc")) None true
    None []
  = ([mkCall (mkQuery "query" "flow"
                [("where", VDict (where_id (VStr "abc")))] flow_fields) []],
     Raise (bad_result (where_id (VStr "abc"))
              [("errors", VList [VStr "unavailable"])]))
  /\ exn_kind (bad_result (where_id (VStr "abc"))
                 [("errors", VList [VStr "unavailable"])]) = ValueError
  /\ exn_kind (bad_result (where_id (VStr "abc"))
                 [("errors", VList [VStr "unavailable"])])
     = exn_kind (no_results (where_id (VStr "abc")))
  /\ exn_msg (bad_result (where_id (VStr "abc"))
                [("errors", VList [VStr "unavailable"])])
     <> exn_msg (no_results (where_id (VStr "abc"))).
Proof.
  apply (query_for_flows_bad_result Sample.backend_no_data
           (where_id (VStr "abc")) None None true _
           [("errors", VList [VStr "unavailable"])] []).
  - split; reflexivity.
  - left. reflexivity.
Defined.

Lemma from_flow_data_pops_witness :
  fst (from_flow_data_on (VDict (Sample.record "abc")))
  = VDict [ ("settings", VDict []); ("run_config", VDict []);
            ("serialized_flow", VDict [("name", VStr "etl")]);
            ("name", VStr "etl"); ("archived", VBool false);
            ("core_version", VStr "0.14.0") ].
Proof.
  destruct (from_flow_data_pops value value Sample.load Sample.load
              (Sample.record "abc")) as (n & H & _ & _ & S & _).
  rewrite H. rewrite (S eq_refl). reflexivity.
Defined.

(** ** The further properties on the sample backends *)

Lemma transport_failure_propagates_witness :
  (exists c,
      from_flow_id_on Sample.backend_down (VStr "abc") []
      = ([c], Raise Sample.connection_refused))
  /\ (exists c,
         from_flow_name_on Sample.backend_down (VStr "etl") VNone true []
         = ([c], Raise Sample.connection_refused)).
Proof.
  destruct (transport_failure_propagates value value Sample.serialize
              Sample.load Sample.load Sample.backend_down
              Sample.connection_refused [] (fun _ _ => eq_refl))
    as (I & _ & N & _).
  split; [apply I|apply N].
Defined.

Lemma from_flow_data_fields_witness :
  exists fv,
    snd (from_flow_data_on (VDict (Sample.record "abc"))) = Ok fv
    /\ Dict.get (Sample.record "abc") "id" = Some (flow_id _ _ fv)
    /\ Sample.load (serialized_flow _ _ fv) = Ok (flow _ _ fv).
Proof.
  eexists. split; [reflexivity|].
  destruct (from_flow_data_fields value value Sample.load Sample.load
              (Sample.record "abc") _ eq_refl)
    as (I & _ & _ & _ & _ & _ & _ & _ & L & _).
  split; [exact I|exact L].
Defined.

Lemma from_flow_data_ok_iff_witness :
  is_ok (snd (from_flow_data_on
                (VDict (Sample.record "abc" ++ [("updated_at", VStr "now")]))))
  = false.
Proof.
  destruct (is_ok _) eqn:E; [|reflexivity].
  apply (from_flow_data_ok_iff value value Sample.load Sample.load
           (Sample.record "abc" ++ [("updated_at", VStr "now")])) in E.
  destruct E as [C _]. vm_compute in C. discriminate C.
Defined.

Lemma from_flow_data_missing_key_witness :
  from_flow_data_on (VDict [("id", VStr "abc"); ("name", VStr "etl")])
  = (VDict [("name", VStr "etl")], Raise (key_error "project")).
Proof.
  destruct (from_flow_data_missing_key value value Sample.load Sample.load
              [("id", VStr "abc"); ("name", VStr "etl")])
    as (_ & P & _).
  exact (P eq_refl eq_refl).
Defined.

Lemma query_for_flows_calls_iff_valid_witness :
  calls (query_for_flows (Sample.backend []) (where_id (VStr "abc")) None
           true
           (Some [("a", VDict []); ("b", VDict [("x", VInt 1)])]))
  = [mkCall
       (mkQuery "query($a: jsonb, $b: jsonb)" "flow"
          [("where", VDict (where_id (VStr "abc")))] flow_fields)
       [("a", VDict []); ("b", VDict [("x", VInt 1)])]].
Proof.
  exact (query_for_flows_calls_iff_valid (Sample.backend [])
           (where_id (VStr "abc")) None true
           [("a", VDict []); ("b", VDict [("x", VInt 1)])] []).
Defined.

Lemma query_for_flows_first_invalid_witness :
  query_for_flows (Sample.backend []) (where_id (VStr "abc")) None true
    (Some [("a", VDict []); ("b", VInt 1); ("c", VStr "x")]) []
  = ([], Raise (mkExn ValueError
                  [Lit "Passed variable "; Repr (VStr "b");
                   Lit " is of type "; TypeName (VInt 1);
                   Lit ", expected 'dict'. Other types are not supported."])).
Proof.
  apply (query_for_flows_first_invalid (Sample.backend [])
           (where_id (VStr "abc")) None true
           [("a", VDict [])] [("c", VStr "x")] "b" (VInt 1) []);
    reflexivity.
Defined.

Lemma from_flow_id_query_witness :
  calls (from_flow_id_on Sample.backend_down (VStr "abc"))
  = [mkCall
       (mkQuery "query" "flow"
          [("where", VDict [("id", VDict [("_eq", VStr "abc")])])]
          flow_fields)
       []].
Proof.
  exact (from_flow_id_query value value Sample.load Sample.load
           Sample.backend_down "abc" []).
Defined.

Lemma from_flow_name_query_witness :
  calls (from_flow_name_on (Sample.backend []) (VStr "etl") (VStr "demo")
           false)
  = [mkCall
       (mkQuery "query" "flow"
          [("where",
            VDict [("name", VDict [("_eq", VStr "etl")]);
                   ("archived", VDict [("_eq", VBool false)]);
                   ("project",
                    VDict [("name", VDict [("_eq", VStr "demo")])])]);
           ("order_by", VDict [("updated_at", VEnum "desc")])]
          flow_fields)
       []].
Proof.
  destruct (from_flow_name_query value value Sample.load Sample.load
              (Sample.backend []) (VStr "etl") false [])
    as (_ & _ & S).
  apply (S "demo"). discriminate.
Defined.

Lemma query_for_flow_returns_witness :
  query_for_flow (Sample.backend [VDict (Sample.record "abc")])
    (where_id (VStr "abc")) None true None []
  = ([mkCall (mkQuery "query" "flow"
                [("where", VDict (where_id (VStr "abc")))] flow_fields) []],
     Ok (VDict (Sample.record "abc")))
  /\ query_for_flow (Sample.backend []) (where_id (VStr "abc")) None false
       None []
     = ([mkCall (mkQuery "query" "flow"
                   [("where", VDict (where_id (VStr "abc")))] flow_fields)
           []],
        Ok (VDict [])).
Proof.
  split.
  - apply (query_for_flow_returns
             (Sample.backend [VDict (Sample.record "abc")])
             (where_id (VStr "abc")) None None _ _ []
             (sample_answers _ _ _)).
    apply sample_carries.
  - apply (query_for_flow_returns (Sample.backend [])
             (where_id (VStr "abc")) None None _ _ []
             (sample_answers _ _ _)).
    apply sample_carries.
Defined.

Lemma query_for_flows_data_not_dict_witness :
  exists e,
    query_for_flows Sample.backend_null_data (where_id (VStr "abc")) None
      true None []
    = ([mkCall (mkQuery "query" "flow"
                  [("where", VDict (where_id (VStr "abc")))] flow_fields)
          []],
       Raise e)
    /\ exn_kind e = AttributeError.
Proof.
  apply (query_for_flows_data_not_dict Sample.backend_null_data
           (where_id (VStr "abc")) None None true _
           [("data", VNone); ("errors", VList [VStr "unavailable"])]
           VNone []).
  - split; reflexivity.
  - reflexivity.
  - reflexivity.
Defined.

Lemma from_flow_obj_one_record_witness :
  exists fv,
    from_flow_obj value value Sample.serialize Sample.load Sample.load
      (Sample.backend [VDict (Sample.record "abc")]) (VStr "extract") true
      []
    = ([mkCall
          (mkQuery "query($serialized_flow: jsonb)" "flow"
             [("where", VDict (where_obj true))] flow_fields)
          [("serialized_flow", VDict [("tasks", VStr "extract")])]],
       Ok fv)
    /\ Dict.get (Sample.record "abc") "id" = Some (flow_id _ _ fv)
    /\ Dict.get (Sample.record "abc") "archived" = Some (archived _ _ fv)
    /\ Dict.get (Sample.record "abc") "serialized_flow"
       = Some (serialized_flow _ _ fv).
Proof.
  apply (from_flow_obj_one_record value value Sample.serialize Sample.load
           Sample.load (Sample.backend [VDict (Sample.record "abc")])
           (VStr "extract") true _
           (Sample.response [VDict (Sample.record "abc")])
           (Sample.record "abc") []).
  - split; reflexivity.
  - apply sample_carries.
  - reflexivity.
  - reflexivity.
Defined.

Lemma lookups_not_found_witness :
  from_flow_name_on (Sample.backend []) (VStr "etl") (VStr "") true []
  = ([mkCall (mkQuery "query" "flow"
                (build_query_args (where_name (VStr "etl") (VStr ""))
                   (Some order_by_updated))
                flow_fields) []],
     Raise (no_results (where_name (VStr "etl") (VStr "")))).
Proof.
  destruct (lookups_not_found value value Sample.serialize Sample.load
              Sample.load (Sample.backend []) []) as [_ N].
  apply (N (VStr "etl") (VStr "") true _ (Sample.response [])).
  - apply sample_answers.
  - apply sample_carries.
Defined.

Lemma lookups_ambiguous_witness :
  from_flow_id_on
    (Sample.backend [VDict (Sample.record "abc");
                     VDict (Sample.record "abc")])
    (VStr "abc") []
  = ([mkCall (mkQuery "query" "flow"
                [("where", VDict (where_id (VStr "abc")))] flow_fields) []],
     Raise (multiple_found 2 (where_id (VStr "abc"))
              (VList [VDict (Sample.record "abc");
                      VDict (Sample.record "abc")]))).
Proof.
  destruct (lookups_ambiguous value value Sample.serialize Sample.load
              Sample.load
              (Sample.backend [VDict (Sample.record "abc");
                               VDict (Sample.record "abc")])
              [VDict (Sample.record "abc"); VDict (Sample.record "abc")] []
              ltac:(simpl; lia)) as [I _].
  apply (I "abc" _ (Sample.response [VDict (Sample.record "abc");
                                     VDict (Sample.record "abc")])).
  - apply sample_answers.
  - apply sample_carries.
Defined.

Lemma from_flow_name_one_witness :
  from_flow_name_on (Sample.backend [VDict [("id", VStr "abc")]])
    (VStr "etl") (VStr "") false []
  = ([mkCall (mkQuery "query" "flow"
                (build_query_args (where_name (VStr "etl") (VStr ""))
                   (Some order_by_updated))
                flow_fields) []],
     Raise (mkExn KeyError [Repr (VInt 0)])).
Proof.
  apply (from_flow_name_one value value Sample.load Sample.load
           (Sample.backend [VDict [("id", VStr "abc")]])
           (VStr "etl") (VStr "") false _
           (Sample.response [VDict [("id", VStr "abc")]])
           [("id", VStr "abc")] []).
  - apply sample_answers.
  - apply sample_carries.
Defined.
